(** * spinoff: the actor cell, its procedure driver and the Process mailbox

    A shallow embedding of [spinoff/actor/_actor.py] ([BaseActor], [Actor])
    and of the mailbox of [spinoff/actor/process.py] ([Process.receive],
    [Process.get]), together with the properties the specification states
    about them.

    Python objects live in a store and are named by their index; methods
    thread the store explicitly and either return, raise (keeping the
    mutations done so far) or run out of fuel. *)

From Stdlib Require Import String List ZArith Lia Bool PeanoNat.
Import ListNotations.

Set Implicit Arguments.

(** ** Python values *)

Definition aid := nat.   (* identity of an actor object *)
Definition did := nat.   (* identity of a Deferred object *)

Inductive exc : Type :=
| ActorNotRunning
| ActorAlreadyRunning
| ActorAlreadyStopped
| ActorNotStarted            (* Exception("Actor not started") *)
| AttributeError
| RuntimeError
| ValueError
| AssertionError
| QueueUnderflow
| CancelledError
| AlreadyCalledError
| ZeroDivisionError
| GeneratorExit              (* a BaseException, not an Exception *)
| DefGenReturn               (* twisted's _DefGen_Return, a BaseException *)
| UserException (n : nat).   (* exceptions of user code, e.g. MockException *)

(** [isinstance(e, Exception)] *)
Definition is_Exception (e : exc) : bool :=
  match e with GeneratorExit | DefGenReturn => false | _ => true end.

#[warnings="-register-all"]
Inductive value : Type :=
| VNone
| VBool (b : bool)
| VInt (z : Z)
| VStr (s : string)
| VTuple (l : list value)
| VActor (a : aid)
| VExc (e : exc)
| VTraceback                 (* sys.exc_info()[2] *)
| VDeferred (d : did)
| VGenerator                 (* a generator object returned by a handler *)
| VAny.                      (* pattern_matching.ANY *)

(** What a Deferred carries: a value or a [Failure] wrapping an exception. *)
Inductive result : Type :=
| RValue (v : value)
| RFailure (e : exc).

(** * The Process mailbox ([process.py]) *)

Module Process.
Section Mailbox.

(** Python's [==] between a message and a pattern ([ANY] compares equal to
    everything); it lives in [spinoff.util.pattern_matching]. *)
Variable py_eq : value -> value -> bool.

Record process : Type := mkProcess {
  hwm : Z;                          (* class attribute, default 10000 *)
  get_d : option value;             (* __get_d: pattern of the pending PickyDeferred *)
  queue : option (list value);      (* __queue, None until the first enqueue *)
  delivered : list value;           (* values fed into __get_d *)
  events : list Z;                  (* HighWaterMarkReached(self.ref, l), by l *)
  enqueued_at : list Z;             (* ghost: len(__queue) after each append *)
  max_queue_len : Z                 (* ghost: largest len(__queue) so far *)
}.

Definition default_hwm : Z := 10000.

Definition fresh (h : Z) : process :=
  mkProcess h None None [] [] [] 0.

(** [not self.__queue] is true for [None] and for the empty list. *)
Definition queue_items (p : process) : list value :=
  match queue p with Some q => q | None => [] end.

Definition qlen (p : process) : Z := Z.of_nat (length (queue_items p)).

(** [PickyDeferred.wants] *)
Definition wants (pattern msg : value) : bool := py_eq msg pattern.

(** [Process.receive]; [inr ZeroDivisionError] when [l % self.hwm] divides by zero. *)
Definition receive (msg : value) (p : process) : process + exc :=
  if match get_d p with Some pat => wants pat msg | None => false end then
    (* self.__get_d.callback(msg), whose callback __clear_get_d resets __get_d *)
    inl (mkProcess (hwm p) None (queue p) (delivered p ++ [msg])
                   (events p) (enqueued_at p) (max_queue_len p))
  else
    let q := queue_items p ++ [msg] in
    let l := Z.of_nat (length q) in
    let p' := mkProcess (hwm p) (get_d p) (Some q) (delivered p) (events p)
                        (enqueued_at p ++ [l]) (Z.max (max_queue_len p) l) in
    if (l =? 0)%Z then inl p'
    else if (hwm p =? 0)%Z then inr ZeroDivisionError
    else if (l mod hwm p =? 0)%Z then
      inl (mkProcess (hwm p) (get_d p) (Some q) (delivered p) (events p ++ [l])
                     (enqueued_at p ++ [l]) (Z.max (max_queue_len p) l))
    else inl p'.

(** [list.index]: position of the first element equal to the pattern. *)
Fixpoint index (pat : value) (q : list value) : option nat :=
  match q with
  | [] => None
  | x :: q' => if py_eq x pat then Some 0%nat
               else match index pat q' with Some i => Some (S i) | None => None end
  end.

(** [list.pop(ix)] *)
Fixpoint pop (ix : nat) (q : list value) : list value :=
  match ix, q with
  | _, [] => []
  | O, _ :: q' => q'
  | S i, x :: q' => x :: pop i q'
  end.

(** [Process.get]: the message taken from the queue, or a new PickyDeferred. *)
Definition get (pat : value) (p : process) : process :=
  match queue p with
  | Some (x :: q') =>
      match index pat (x :: q') with
      | Some ix =>
          mkProcess (hwm p) (get_d p) (Some (pop ix (x :: q')))
                    (delivered p ++ [nth ix (x :: q') VNone])
                    (events p) (enqueued_at p) (max_queue_len p)
      | None =>
          mkProcess (hwm p) (Some pat) (queue p) (delivered p)
                    (events p) (enqueued_at p) (max_queue_len p)
      end
  | _ =>
      mkProcess (hwm p) (Some pat) (queue p) (delivered p)
                (events p) (enqueued_at p) (max_queue_len p)
  end.

(** A run of the mailbox: messages arriving and the body asking for one. *)
Inductive mailbox_op : Type :=
| Receive (msg : value)
| Get (pat : value).

Fixpoint run (ops : list mailbox_op) (p : process) : process + exc :=
  match ops with
  | [] => inl p
  | Receive m :: ops' =>
      match receive m p with
      | inl p' => run ops' p'
      | inr e => inr e
      end
  | Get pat :: ops' => run ops' (get pat p)
  end.

Definition is_receive (o : mailbox_op) : bool :=
  match o with Receive _ => true | Get _ => false end.

(** What every run keeps: the queue is no longer than its recorded maximum,
    the events are the enqueues that reached a multiple of [hwm], and there
    are at least [max_queue_len / hwm] of them. *)
Definition run_invariant (p : process) : Prop :=
  (qlen p <= max_queue_len p)%Z /\
  events p = filter (fun l => (l mod hwm p =? 0)%Z) (enqueued_at p) /\
  (max_queue_len p / hwm p <= Z.of_nat (length (events p)))%Z.

(** What a run keeps as long as nothing is taken out of the queue. *)
Definition growing (p : process) : Prop :=
  get_d p = None /\ qlen p = max_queue_len p /\
  Z.of_nat (length (events p)) = (max_queue_len p / hwm p)%Z.

(** Fill the queue up to the default mark, take one message, add one. *)
Definition refill_ops : list mailbox_op :=
  repeat (Receive VNone) (Z.to_nat default_hwm) ++ [Get VAny; Receive VNone].

End Mailbox.
End Process.

(** * The actor cell ([_actor.py]) *)

Module Actor.

(** [NOT_STARTED, RUNNING, PAUSED, STOPPED = range(4)] *)
Inductive state : Type := NOT_STARTED | RUNNING | PAUSED | STOPPED.

(** What a stateless handler ([baseactor(fn)]) does with a message. *)
Inductive hres : Type :=
| HReturn                    (* returns None *)
| HGenerator                 (* returns a generator: a yield inside the handler *)
| HRaise (e : exc).

(** The body of an [Actor]: the generator returned by [run], as the tree of
    what it does next.  [Yield x on_send on_throw on_close] suspends at a
    [yield x]; the three continuations say how the generator goes on when
    it is resumed with [send], with [throw], and with the [GeneratorExit]
    that [close] raises at the yield. *)
Inductive gen : Type :=
| Return                                         (* falls off the end *)
| Raise (e : exc)
| ReturnValue (v : value)                        (* returnValue(v) *)
| Yield (x : value) (on_send : value -> gen) (on_throw : exc -> gen) (on_close : gen)
| Get (filter : option value) (k : value -> gen) (* x = self.get(filter) *)
| Spawn (c : actor_cls) (k : aid -> gen)         (* c = self.spawn(cls) *)
with actor_cls : Type :=
| BaseActorCls (handle : value -> hres)
| ActorCls (run : gen).

(** A body that does not catch what is thrown into it. *)
Definition uncaught : exc -> gen := Raise.
Definition no_cleanup : gen := Raise GeneratorExit.

(** [BaseActor] itself: its [handle] prints the message. *)
Definition BaseActor : actor_cls := BaseActorCls (fun _ => HReturn).

(** The state of the generator object held in [_gen]. *)
Inductive gen_status : Type :=
| GenSuspended (on_send : value -> gen) (on_throw : exc -> gen) (on_close : gen)
| GenRunning
| GenDone.

Record cell : Type := mkCell {
  cls : actor_cls;
  _state : state;
  _parent : option aid;
  _children : list aid;
  _pending : list value;
  d : did;
  (* Actor only *)
  _gen : option gen_status;
  _paused_result : result;                    (* RValue VNone stands for None *)
  _current_d : option did;
  _on_hold_d : option did;
  _cancelling_hold_d : bool;
  _waiting : option (option value * did);
  _inbox : list value
}.

Definition set_state (x : state) (c : cell) : cell :=
  mkCell (cls c) x (_parent c) (_children c) (_pending c) (d c) (_gen c)
         (_paused_result c) (_current_d c) (_on_hold_d c) (_cancelling_hold_d c)
         (_waiting c) (_inbox c).
Definition set_parent (x : option aid) (c : cell) : cell :=
  mkCell (cls c) (_state c) x (_children c) (_pending c) (d c) (_gen c)
         (_paused_result c) (_current_d c) (_on_hold_d c) (_cancelling_hold_d c)
         (_waiting c) (_inbox c).
Definition set_children (x : list aid) (c : cell) : cell :=
  mkCell (cls c) (_state c) (_parent c) x (_pending c) (d c) (_gen c)
         (_paused_result c) (_current_d c) (_on_hold_d c) (_cancelling_hold_d c)
         (_waiting c) (_inbox c).
Definition set_pending (x : list value) (c : cell) : cell :=
  mkCell (cls c) (_state c) (_parent c) (_children c) x (d c) (_gen c)
         (_paused_result c) (_current_d c) (_on_hold_d c) (_cancelling_hold_d c)
         (_waiting c) (_inbox c).
Definition set_gen (x : option gen_status) (c : cell) : cell :=
  mkCell (cls c) (_state c) (_parent c) (_children c) (_pending c) (d c) x
         (_paused_result c) (_current_d c) (_on_hold_d c) (_cancelling_hold_d c)
         (_waiting c) (_inbox c).
Definition set_paused_result (x : result) (c : cell) : cell :=
  mkCell (cls c) (_state c) (_parent c) (_children c) (_pending c) (d c) (_gen c)
         x (_current_d c) (_on_hold_d c) (_cancelling_hold_d c)
         (_waiting c) (_inbox c).
Definition set_current_d (x : option did) (c : cell) : cell :=
  mkCell (cls c) (_state c) (_parent c) (_children c) (_pending c) (d c) (_gen c)
         (_paused_result c) x (_on_hold_d c) (_cancelling_hold_d c)
         (_waiting c) (_inbox c).
Definition set_on_hold_d (x : option did) (c : cell) : cell :=
  mkCell (cls c) (_state c) (_parent c) (_children c) (_pending c) (d c) (_gen c)
         (_paused_result c) (_current_d c) x (_cancelling_hold_d c)
         (_waiting c) (_inbox c).
Definition set_cancelling_hold_d (x : bool) (c : cell) : cell :=
  mkCell (cls c) (_state c) (_parent c) (_children c) (_pending c) (d c) (_gen c)
         (_paused_result c) (_current_d c) (_on_hold_d c) x
         (_waiting c) (_inbox c).
Definition set_waiting (x : option (option value * did)) (c : cell) : cell :=
  mkCell (cls c) (_state c) (_parent c) (_children c) (_pending c) (d c) (_gen c)
         (_paused_result c) (_current_d c) (_on_hold_d c) (_cancelling_hold_d c)
         x (_inbox c).
Definition set_inbox (x : list value) (c : cell) : cell :=
  mkCell (cls c) (_state c) (_parent c) (_children c) (_pending c) (d c) (_gen c)
         (_paused_result c) (_current_d c) (_on_hold_d c) (_cancelling_hold_d c)
         (_waiting c) x.

(** ** Deferreds *)

(** The callbacks the module attaches to Deferreds. *)
Inductive callback : Type :=
| CbFireCurrentD (a : aid) (bridge : did)   (* x.addBoth(self._fire_current_d, d) *)
| CbGotResult (a : aid)                     (* inlineCallbacks waiting on the yielded d *)
| CbRemoveChild (p c : aid).                (* lambda _: self._children.remove(child) *)

Inductive canceller : Type :=
| ClearWaiting (a : aid)                    (* lambda d: setattr(self, '_waiting', None) *)
| Probe.                                    (* a canceller of the environment *)

Record deferred : Type := mkDeferred {
  called : bool;
  dresult : result;
  callbacks : list callback;
  dcanceller : option canceller;
  suppress : bool;                          (* _suppressAlreadyCalled *)
  fired : nat                               (* ghost: callback()/errback() invocations *)
}.

Definition new_deferred (c : option canceller) : deferred :=
  mkDeferred false (RValue VNone) [] c false 0.

(** ** The store and what is observed *)

Inductive event : Type :=
| EvHandle (a : aid) (m : value)            (* a.handle(m) was invoked *)
| EvResume (a : aid) (r : result)           (* the body was resumed after a yield *)
| EvCancel (x : did)                        (* x.cancel() was invoked *)
| EvWarn (w : string)                       (* warnings.warn *)
| EvUnhandled (e : exc).                    (* an error left in a Deferred chain *)

Record store : Type := mkStore {
  cells : aid -> option cell;
  next_cell : aid;
  defs : did -> option deferred;
  next_def : did;
  log : list event
}.

Definition empty_store : store :=
  mkStore (fun _ => None) 0 (fun _ => None) 0 [].

Definition upd {A : Type} (f : nat -> option A) (i : nat) (x : A) : nat -> option A :=
  fun j => if Nat.eqb j i then Some x else f j.

Inductive outcome : Type :=
| Ok (v : value) (s : store)
| Exn (e : exc) (s : store)                 (* raised; the mutations so far stay *)
| Stuck                                     (* a dangling reference *)
| OutOfFuel.

Definition M : Type := store -> outcome.

Definition ret (v : value) : M := fun s => Ok v s.
Definition raise (e : exc) : M := fun s => Exn e s.
Definition bind (m : M) (f : value -> M) : M :=
  fun s => match m s with Ok v s' => f v s' | o => o end.

Notation "x <- m ;; k" := (bind m (fun x => k))
  (at level 61, m at next level, right associativity).
Notation "m ;; k" := (bind m (fun _ => k))
  (at level 61, right associativity).

(** [try: m  except Exception as e: h e] *)
Definition try_except (m : M) (h : exc -> M) : M :=
  fun s => match m s with
           | Exn e s' => if is_Exception e then h e s' else Exn e s'
           | o => o
           end.

(** [try: m  finally: f] *)
Definition try_finally (m : M) (f : M) : M :=
  fun s => match m s with
           | Ok v s' => (f ;; ret v) s'
           | Exn e s' => (f ;; raise e) s'
           | o => o
           end.

Definition set_cell (a : aid) (c : cell) (s : store) : store :=
  mkStore (upd (cells s) a c) (next_cell s) (defs s) (next_def s) (log s).

Definition set_def (x : did) (df : deferred) (s : store) : store :=
  mkStore (cells s) (next_cell s) (upd (defs s) x df) (next_def s) (log s).

Definition add_log (evs : list event) (s : store) : store :=
  mkStore (cells s) (next_cell s) (defs s) (next_def s) (log s ++ evs).

Definition emit (ev : event) : M :=
  fun s => Ok VNone (add_log [ev] s).

Definition with_cell (a : aid) (f : cell -> M) : M :=
  fun s => match cells s a with Some c => f c s | None => Stuck end.

Definition upd_cell (a : aid) (f : cell -> cell) : M :=
  fun s => match cells s a with
           | Some c => Ok VNone (set_cell a (f c) s)
           | None => Stuck
           end.

Definition with_def (x : did) (f : deferred -> M) : M :=
  fun s => match defs s x with Some df => f df s | None => Stuck end.

Definition upd_def (x : did) (f : deferred -> deferred) : M :=
  fun s => match defs s x with
           | Some df => Ok VNone (set_def x (f df) s)
           | None => Stuck
           end.

(** [Deferred(canceller)]: returns [VDeferred] of the new object. *)
Definition alloc_def (df : deferred) : M :=
  fun s => Ok (VDeferred (next_def s))
              (mkStore (cells s) (next_cell s)
                       (upd (defs s) (next_def s) df) (S (next_def s)) (log s)).

(** [BaseActor.__init__] and [Actor.__init__]. *)
Definition alloc_cell (k : actor_cls) : M :=
  fun s =>
    let c := mkCell k NOT_STARTED None [] [] (next_def s) None (RValue VNone)
                    None None false None [] in
    Ok (VActor (next_cell s))
       (mkStore (upd (cells s) (next_cell s) c) (S (next_cell s))
                (upd (defs s) (next_def s) (new_deferred None)) (S (next_def s)) (log s)).

(** ** The methods

    Every method of the two classes is an operation; [exec] below runs an
    operation with a bound on the depth of nested calls. *)

Inductive op : Type :=
| SpawnRoot (k : actor_cls)                     (* cls.spawn() on the class *)
| SpawnChild (p : aid) (c : actor_cls + aid)    (* self._spawn_child(actor_cls) *)
| Start (a : aid)
| Send (a : aid) (message : value)
| Handle (a : aid) (message : value)
| Pause (a : aid)
| Resume (a : aid)
| BaseResume (a : aid)                          (* super(Actor, self).resume() *)
| Stop (a : aid) (silent : bool)
| BaseStop (a : aid) (silent : bool)            (* super(Actor, self).stop() *)
| Exit (a : aid) (msg : value)
| GetMsg (a : aid) (filter : option value)      (* Actor.get *)
| FireCurrentD (a : aid) (r : result) (bridge : did)
| OnStop (a : aid)
| Close (a : aid)                               (* self._gen.close() *)
| RunClose (a : aid) (g : gen)
| RunGen (a : aid) (g : gen)                    (* wrap driving the body *)
| GotResult (a : aid) (r : result)              (* inlineCallbacks resuming wrap *)
| Finally (a : aid) (r : result)                (* finally_ of Actor.start *)
| Callback (x : did) (r : result)               (* Deferred.callback / errback *)
| AddBoth (x : did) (cb : callback)
| Cancel (x : did).

Definition error_msg (a : aid) (e : exc) : value :=
  VTuple [VStr "error"; VActor a; VTuple [VExc e; VTraceback]].

Definition stopped_msg (a : aid) : value :=
  VTuple [VStr "stopped"; VActor a].

Definition children_of (a : aid) (s : store) : list aid :=
  match cells s a with Some c => _children c | None => [] end.

Definition pending_of (a : aid) (s : store) : list value :=
  match cells s a with Some c => _pending c | None => [] end.

(** [for x in <list attribute>: body]: Python's list iterator keeps an index
    into the live list, so the list is read again at every step. *)
Fixpoint for_each {A : Type} (k : nat) (items : store -> list A)
         (body : A -> M) (i : nat) : M :=
  match k with
  | O => fun _ => OutOfFuel
  | S k' => fun s =>
      match nth_error (items s) i with
      | None => Ok VNone s
      | Some x => (body x ;; for_each k' items body (S i)) s
      end
  end.

(** [list.remove(x)]: drops the first occurrence. *)
Fixpoint remove_first (x : aid) (l : list aid) : list aid :=
  match l with
  | [] => []
  | y :: l' => if Nat.eqb y x then l' else y :: remove_first x l'
  end.

Fixpoint mem (x : aid) (l : list aid) : bool :=
  match l with
  | [] => false
  | y :: l' => Nat.eqb y x || mem x l'
  end.

Fixpoint remove_nth (i : nat) (l : list value) : list value :=
  match i, l with
  | _, [] => []
  | O, _ :: l' => l'
  | S j, x :: l' => x :: remove_nth j l'
  end.

(** How [wrap] resumes the generator with what the yield produced:
    [gen.throw] for an instance of [Exception], [gen.send] otherwise. *)
Definition resume_with (on_send : value -> gen) (on_throw : exc -> gen)
           (r : result) : gen :=
  match r with
  | RFailure e => if is_Exception e then on_throw e else on_send (VExc e)
  | RValue (VExc e) => if is_Exception e then on_throw e else on_send (VExc e)
  | RValue v => on_send v
  end.

Definition set_callbacks (l : list callback) (df : deferred) : deferred :=
  mkDeferred (called df) (dresult df) l (dcanceller df) (suppress df) (fired df).
Definition set_dresult (r : result) (df : deferred) : deferred :=
  mkDeferred (called df) r (callbacks df) (dcanceller df) (suppress df) (fired df).
Definition set_suppress (b : bool) (df : deferred) : deferred :=
  mkDeferred (called df) (dresult df) (callbacks df) (dcanceller df) b (fired df).
Definition bump_fired (df : deferred) : deferred :=
  mkDeferred (called df) (dresult df) (callbacks df) (dcanceller df) (suppress df)
             (S (fired df)).
Definition fire (r : result) (df : deferred) : deferred :=
  mkDeferred true r (callbacks df) (dcanceller df) (suppress df) (S (fired df)).

(** [succeed(v)] *)
Definition succeed (v : value) : deferred :=
  mkDeferred true (RValue v) [] None false 1.

Section Methods.

(** [match(pattern, message)] of [spinoff.util.pattern_matching]: whether
    the message matches and the values it binds. *)
Variable pmatch : value -> value -> bool * value.

(** The first message of the inbox that matches, with its position. *)
Fixpoint find_match (f : value) (inbox : list value) : option (nat * value) :=
  match inbox with
  | [] => None
  | msg :: rest =>
      let (m, values) := pmatch f msg in
      if m then Some (0, values)
      else match find_match f rest with
           | Some (i, v) => Some (S i, v)
           | None => None
           end
  end.

(** The [found] of [Actor.handle]: [None] stands for [EMPTY]. *)
Definition found (filter : option value) (message : value) : option value :=
  match filter with
  | None => Some message
  | Some f => let (m, values) := pmatch f message in
              if m then Some values else None
  end.

Section Step.

Variable n : nat.            (* bound on the length of the loops *)
Variable rec : op -> M.      (* calls to methods *)

(** [self.parent.send(msg)] *)
Definition parent_send (a : aid) (msg : value) : M :=
  with_cell a (fun c =>
    match _parent c with
    | Some p => rec (Send p msg)
    | None => raise AttributeError
    end).

(** [BaseActor.send] *)
Definition send (a : aid) (message : value) : M :=
  with_cell a (fun c =>
    match _state c with
    | RUNNING =>
        fun s =>
          match rec (Handle a message) s with
          | Ok VGenerator s' => Exn RuntimeError s'
          | Ok _ s' => Ok VNone s'
          | Exn e s' =>
              if is_Exception e then (parent_send a (error_msg a e) ;; ret VNone) s'
              else Exn e s'
          | o => o
          end
    | NOT_STARTED => raise ActorNotRunning
    | PAUSED => upd_cell a (fun c' => set_pending (_pending c' ++ [message]) c')
    | STOPPED => raise ActorNotRunning
    end).

(** [Actor.handle] *)
Definition actor_handle (a : aid) (message : value) : M :=
  with_cell a (fun c =>
    let enqueue := upd_cell a (fun c' => set_inbox (_inbox c' ++ [message]) c') in
    match _waiting c with
    | Some (filter, dw) =>
        match found filter message with
        | Some v =>
            upd_cell a (set_waiting None) ;;
            rec (Callback dw (RValue v)) ;;
            ret VNone
        | None => enqueue
        end
    | None => enqueue
    end).

(** [handle], by the class of the cell; [BaseActor.handle] prints. *)
Definition handle (a : aid) (message : value) : M :=
  emit (EvHandle a message) ;;
  with_cell a (fun c =>
    match cls c with
    | BaseActorCls h =>
        match h message with
        | HReturn => ret VNone
        | HGenerator => ret VGenerator
        | HRaise e => raise e
        end
    | ActorCls _ => actor_handle a message
    end).

(** [BaseActor.pause] *)
Definition pause (a : aid) : M :=
  with_cell a (fun c =>
    match _state c with
    | RUNNING =>
        upd_cell a (set_state PAUSED) ;;
        for_each n (children_of a)
          (fun child => with_cell child (fun cc =>
             match _state cc with
             | RUNNING => rec (Pause child)
             | _ => ret VNone
             end)) 0
    | _ => raise ActorNotRunning
    end).

(** [BaseActor.resume] *)
Definition base_resume (a : aid) : M :=
  with_cell a (fun c =>
    match _state c with
    | RUNNING => raise ActorAlreadyRunning
    | STOPPED => raise ActorAlreadyStopped
    | _ =>
        upd_cell a (set_state RUNNING) ;;
        for_each n (children_of a)
          (fun child => with_cell child (fun cc =>
             match _state cc with
             | RUNNING => ret VNone
             | _ => rec (Resume child)
             end)) 0 ;;
        with_cell a (fun c' =>
          match _pending c' with
          | [] => ret VNone
          | _ :: _ =>
              for_each n (pending_of a) (fun m => rec (Send a m)) 0 ;;
              upd_cell a (set_pending [])
          end)
    end).

(** [BaseActor.exit] *)
Definition exit (a : aid) (msg : value) : M :=
  parent_send a msg ;;
  with_cell a (fun c => rec (Callback (d c) (RValue VNone))).

(** [BaseActor.stop] *)
Definition base_stop (a : aid) (silent : bool) : M :=
  with_cell a (fun c =>
    match _state c with
    | NOT_STARTED => raise ActorNotStarted
    | STOPPED => raise ActorAlreadyStopped
    | RUNNING => rec (Pause a)
    | PAUSED => ret VNone
    end) ;;
  for_each n (children_of a) (fun child => rec (Stop child true)) 0 ;;
  upd_cell a (set_state STOPPED) ;;
  with_cell a (fun c => with_def (d c) (fun df =>
    if negb silent && negb (called df) then rec (Exit a (stopped_msg a))
    else ret VNone)).

(** [Actor._fire_current_d] *)
Definition fire_current_d (a : aid) (r : result) (bridge : did) : M :=
  upd_cell a (set_on_hold_d None) ;;
  with_cell a (fun c =>
    match _state c, _cancelling_hold_d c with
    | RUNNING, false => rec (Callback bridge r)
    | _, _ => upd_cell a (fun c' => set_paused_result r (set_current_d (Some bridge) c'))
    end).

(** [Actor.get] *)
Definition register_waiting (a : aid) (filter : option value) : M :=
  dv <- alloc_def (new_deferred (Some (ClearWaiting a))) ;;
  with_cell a (fun c =>
    match _waiting c, dv with
    | Some _, _ => raise QueueUnderflow
    | None, VDeferred dw => upd_cell a (set_waiting (Some (filter, dw))) ;; ret dv
    | None, _ => fun _ => Stuck
    end).

Definition get (a : aid) (filter : option value) : M :=
  with_cell a (fun c =>
    match _inbox c, filter with
    | msg :: rest, None => upd_cell a (set_inbox rest) ;; ret msg
    | _ :: _, Some f =>
        match find_match f (_inbox c) with
        | Some (i, values) =>
            (* values = m[1:] is the tuple of what follows the flag *)
            upd_cell a (set_inbox (remove_nth i (_inbox c))) ;;
            alloc_def (succeed (VTuple [values]))
        | None => register_waiting a filter
        end
    | [], _ => register_waiting a filter
    end).

(** [Actor.resume] and [BaseActor.resume], by the class of the cell. *)
Definition resume (a : aid) : M :=
  with_cell a (fun c =>
    match cls c with
    | BaseActorCls _ => rec (BaseResume a)
    | ActorCls _ =>
        rec (BaseResume a) ;;
        with_cell a (fun c' =>
          match _current_d c' with
          | Some bridge =>
              rec (Callback bridge (_paused_result c')) ;;
              upd_cell a (fun c'' => set_paused_result (RValue VNone) (set_current_d None c''))
          | None => ret VNone
          end)
    end).

(** [generator.close()] on the body: the code the body runs on
    [GeneratorExit]. *)
Definition run_close (a : aid) (g : gen) : M :=
  match g with
  | Return => upd_cell a (set_gen (Some GenDone))
  | Raise e =>
      upd_cell a (set_gen (Some GenDone)) ;;
      match e with GeneratorExit => ret VNone | _ => raise e end
  | ReturnValue _ => upd_cell a (set_gen (Some GenDone)) ;; raise DefGenReturn
  | Yield _ ks kt kc =>
      (* "generator ignored GeneratorExit" *)
      upd_cell a (set_gen (Some (GenSuspended ks kt kc))) ;; raise RuntimeError
  | Get f k =>
      fun s => match rec (GetMsg a f) s with
               | Ok v s' => rec (RunClose a (k v)) s'
               | Exn e s' => rec (RunClose a (Raise e)) s'
               | o => o
               end
  | Spawn c k =>
      fun s => match rec (SpawnChild a (inl c)) s with
               | Ok (VActor ch) s' => rec (RunClose a (k ch)) s'
               | Ok _ _ => Stuck
               | Exn e s' => rec (RunClose a (Raise e)) s'
               | o => o
               end
  end.

Definition close (a : aid) : M :=
  with_cell a (fun c =>
    match _gen c with
    | Some (GenSuspended _ _ kc) =>
        upd_cell a (set_gen (Some GenRunning)) ;; rec (RunClose a kc)
    | Some GenRunning => raise ValueError     (* generator already executing *)
    | Some GenDone => ret VNone
    | None => fun _ => Stuck
    end).

(** [Actor._on_stop] *)
Definition on_stop (a : aid) : M :=
  with_cell a (fun c =>
    match _on_hold_d c with
    | Some x =>
        try_except
          (upd_cell a (set_cancelling_hold_d true) ;;
           try_finally (rec (Cancel x)) (upd_cell a (set_cancelling_hold_d false)) ;;
           with_cell a (fun c' =>
             (* assert isinstance(self._paused_result.value, CancelledError) *)
             match _paused_result c' with
             | RFailure CancelledError => ret VNone
             | RFailure _ => raise AssertionError
             | RValue _ => raise AttributeError
             end) ;;
           upd_cell a (set_paused_result (RValue VNone)))
          (fun _ => ret VNone)
    | None => ret VNone
    end) ;;
  with_cell a (fun c =>
    match _gen c with
    | Some _ =>
        fun s =>
          match rec (Close a) s with
          | Exn DefGenReturn s' => emit (EvWarn "returnValue inside an actor") s'
          | Exn e s' =>
              if is_Exception e then rec (Exit a (error_msg a e)) s' else Exn e s'
          | o => o
          end
    | None => ret VNone
    end) ;;
  with_cell a (fun c =>
    match _state c, _paused_result c with
    | PAUSED, RFailure _ => emit (EvWarn "Pending exception in paused actor")
    | _, _ => ret VNone
    end).

(** [Actor.stop] and [BaseActor.stop], by the class of the cell. *)
Definition stop (a : aid) (silent : bool) : M :=
  with_cell a (fun c =>
    match cls c with
    | BaseActorCls _ => rec (BaseStop a silent)
    | ActorCls _ => rec (OnStop a) ;; rec (BaseStop a false)
    end).

(** [finally_] in [Actor.start]; what it raises stays in the Deferred. *)
Definition finally_ (a : aid) (r : result) : M :=
  fun s =>
    match ((match r with
            | RFailure e => rec (Exit a (error_msg a e))
            | RValue _ => ret VNone
            end) ;; rec (Stop a false)) s with
    | Exn e s' => emit (EvUnhandled e) s'
    | o => o
    end.

(** The loop of [wrap] under [inlineCallbacks], running the code [g] of the
    body up to its next suspension. *)
Definition run_gen (a : aid) (g : gen) : M :=
  match g with
  | Return => upd_cell a (set_gen (Some GenDone)) ;; rec (Finally a (RValue VNone))
  | Raise e => upd_cell a (set_gen (Some GenDone)) ;; rec (Finally a (RFailure e))
  | ReturnValue _ =>
      upd_cell a (set_gen (Some GenDone)) ;;
      emit (EvWarn "returnValue inside an actor") ;;
      rec (Finally a (RValue VNone))
  | Yield (VDeferred x) ks kt kc =>
      upd_cell a (set_gen (Some (GenSuspended ks kt kc))) ;;
      bv <- alloc_def (new_deferred None) ;;
      match bv with
      | VDeferred bridge =>
          rec (AddBoth x (CbFireCurrentD a bridge)) ;;
          upd_cell a (set_on_hold_d (Some x)) ;;
          rec (AddBoth bridge (CbGotResult a))
      | _ => fun _ => Stuck
      end
  | Yield x ks kt kc =>
      emit (EvResume a (RValue x)) ;;
      rec (RunGen a (resume_with ks kt (RValue x)))
  | Get f k =>
      fun s => match rec (GetMsg a f) s with
               | Ok v s' => rec (RunGen a (k v)) s'
               | Exn e s' => rec (RunGen a (Raise e)) s'
               | o => o
               end
  | Spawn c k =>
      fun s => match rec (SpawnChild a (inl c)) s with
               | Ok (VActor ch) s' => rec (RunGen a (k ch)) s'
               | Ok _ _ => Stuck
               | Exn e s' => rec (RunGen a (Raise e)) s'
               | o => o
               end
  end.

(** [inlineCallbacks] resuming [wrap] when the Deferred it yielded fires. *)
Definition got_result (a : aid) (r : result) : M :=
  with_cell a (fun c =>
    match _gen c with
    | Some (GenSuspended ks kt _) =>
        upd_cell a (set_gen (Some GenRunning)) ;;
        emit (EvResume a r) ;;
        rec (RunGen a (resume_with ks kt r))
    | Some GenDone =>
        (* the generator was closed: send stops the loop, throw re-raises *)
        rec (Finally a (match r with
                        | RFailure e | RValue (VExc e) =>
                            if is_Exception e then RFailure e else RValue VNone
                        | RValue _ => RValue VNone
                        end))
    | _ => fun _ => Stuck
    end).

(** [Actor.start] and [BaseActor.start], by the class of the cell. *)
Definition start (a : aid) : M :=
  with_cell a (fun c =>
    match cls c with
    | BaseActorCls _ => rec (Resume a)
    | ActorCls run =>
        rec (Resume a) ;;
        upd_cell a (set_gen (Some GenRunning)) ;;
        rec (RunGen a run)
    end).

(** [BaseActor.spawn] called on the class. *)
Definition spawn (k : actor_cls) : M :=
  chv <- alloc_cell k ;;
  match chv with
  | VActor ch => rec (Start ch) ;; ret chv
  | _ => fun _ => Stuck
  end.

(** [BaseActor._spawn_child] *)
Definition spawn_child (p : aid) (c : actor_cls + aid) : M :=
  chv <- match c with
         | inl k => alloc_cell k
         | inr ch => ret (VActor ch)
         end ;;
  match chv with
  | VActor child =>
      upd_cell child (set_parent (Some p)) ;;
      rec (Start child) ;;
      upd_cell p (fun pc => set_children (_children pc ++ [child]) pc) ;;
      with_cell child (fun cc => rec (AddBoth (d cc) (CbRemoveChild p child))) ;;
      ret chv
  | _ => fun _ => Stuck
  end.

(** *** Deferred *)

Definition apply_callback (cb : callback) (r : result) : M :=
  match cb with
  | CbFireCurrentD a bridge => rec (FireCurrentD a r bridge)
  | CbGotResult a => rec (GotResult a r)
  | CbRemoveChild p c =>
      with_cell p (fun pc =>
        if mem c (_children pc)
        then upd_cell p (fun pc' => set_children (remove_first c (_children pc')) pc')
        else raise ValueError)
  end.

(** [Deferred._runCallbacks]: each callback receives the current result and
    leaves what it returns, or the failure it raised, as the next one. *)
Fixpoint run_callbacks (k : nat) (x : did) : M :=
  match k with
  | O => fun _ => OutOfFuel
  | S k' =>
      with_def x (fun df =>
        match callbacks df with
        | [] => ret VNone
        | cb :: rest =>
            upd_def x (set_callbacks rest) ;;
            (fun s =>
               match apply_callback cb (dresult df) s with
               | Ok v s' => (upd_def x (set_dresult (RValue v)) ;; run_callbacks k' x) s'
               | Exn e s' => (upd_def x (set_dresult (RFailure e)) ;; run_callbacks k' x) s'
               | o => o
               end)
        end)
  end.

(** [Deferred.callback] and [Deferred.errback] *)
Definition callback_ (x : did) (r : result) : M :=
  with_def x (fun df =>
    if called df then
      if suppress df then upd_def x (set_suppress false)
      else upd_def x bump_fired ;; raise AlreadyCalledError
    else upd_def x (fire r) ;; run_callbacks n x).

(** [Deferred.addBoth] *)
Definition add_both (x : did) (cb : callback) : M :=
  upd_def x (fun df => set_callbacks (callbacks df ++ [cb]) df) ;;
  with_def x (fun df => if called df then run_callbacks n x else ret VNone).

(** [Deferred.cancel] *)
Definition cancel (x : did) : M :=
  emit (EvCancel x) ;;
  with_def x (fun df =>
    if called df then ret VNone
    else
      match dcanceller df with
      | Some (ClearWaiting a) => upd_cell a (set_waiting None)
      | Some Probe => ret VNone
      | None => upd_def x (set_suppress true)
      end ;;
      with_def x (fun df' =>
        if called df' then ret VNone
        else rec (Callback x (RFailure CancelledError)))).

Definition step (o : op) : M :=
  match o with
  | SpawnRoot k => spawn k
  | SpawnChild p c => spawn_child p c
  | Start a => start a
  | Send a m => send a m
  | Handle a m => handle a m
  | Pause a => pause a
  | Resume a => resume a
  | BaseResume a => base_resume a
  | Stop a silent => stop a silent
  | BaseStop a silent => base_stop a silent
  | Exit a msg => exit a msg
  | GetMsg a f => get a f
  | FireCurrentD a r bridge => fire_current_d a r bridge
  | OnStop a => on_stop a
  | Close a => close a
  | RunClose a g => run_close a g
  | RunGen a g => run_gen a g
  | GotResult a r => got_result a r
  | Finally a r => finally_ a r
  | Callback x r => callback_ x r
  | AddBoth x cb => add_both x cb
  | Cancel x => cancel x
  end.

End Step.

(** Running an operation; [fuel] bounds the depth of nested calls and the
    length of the loops. *)
Fixpoint exec (fuel : nat) (o : op) : M :=
  match fuel with
  | O => fun _ => OutOfFuel
  | S fuel' => step fuel' (exec fuel') o
  end.

End Methods.

(** ** Runs and observations *)

(** A sequence of calls made from outside, one after the other. *)
Fixpoint run_ops (pmatch : value -> value -> bool * value) (fuel : nat)
         (ops : list op) : M :=
  match ops with
  | [] => ret VNone
  | o :: rest => exec pmatch fuel o ;; run_ops pmatch fuel rest
  end.

(** A cell that takes [msg] without further ado: it is paused (and buffers),
    or runs a handler that returns, or runs a body with no one waiting. *)
Definition accepts (pc : cell) (msg : value) : bool :=
  match _state pc with
  | PAUSED => true
  | RUNNING =>
      match cls pc with
      | BaseActorCls h => match h msg with HReturn => true | _ => false end
      | ActorCls _ => match _waiting pc with None => true | Some _ => false end
      end
  | _ => false
  end.

(** [p] has received [msg]: its [handle] was invoked with it, or the message
    sits in its buffer of pending messages. *)
Definition got (s : store) (p : aid) (msg : value) : Prop :=
  In (EvHandle p msg) (log s) \/
  exists pc, cells s p = Some pc /\ In msg (_pending pc).

(** What [send] logs when an accepting cell takes a message. *)
Definition deliver_log (pc : cell) (p : aid) (msg : value) : list event :=
  match _state pc with
  | RUNNING => [EvHandle p msg]
  | _ => []
  end.

(** The cell [pc] once it has taken [msg]. *)
Definition took (pc : cell) (msg : value) : cell :=
  match _state pc with
  | PAUSED => set_pending (_pending pc ++ [msg]) pc
  | RUNNING =>
      match cls pc with
      | BaseActorCls _ => pc
      | ActorCls _ => set_inbox (_inbox pc ++ [msg]) pc
      end
  | _ => pc
  end.

(** The store once the accepting cell [p], which was [pc], has taken [msg]. *)
Definition deliver (p : aid) (pc : cell) (msg : value) (s : store) : store :=
  match _state pc with
  | PAUSED => set_cell p (took pc msg) s
  | RUNNING =>
      match cls pc with
      | BaseActorCls _ => add_log [EvHandle p msg] s
      | ActorCls _ => set_cell p (took pc msg) (add_log [EvHandle p msg] s)
      end
  | _ => s
  end.

(** What [close] makes of the cleanup code of a body that neither asks for
    messages nor spawns while it is closed: [Some None] when the generator
    exits (returning a value included), [Some (Some e)] when [close] raises
    [e] - the exception of the body, or RuntimeError when the body yields
    again. *)
Definition close_outcome (kc : gen) : option (option exc) :=
  match kc with
  | Return | Raise GeneratorExit | ReturnValue _ => Some None
  | Raise (UserException n) => Some (Some (UserException n))
  | Yield _ _ _ _ => Some (Some RuntimeError)
  | _ => None
  end.

(** The message a stopping cell sends to its parent. *)
Definition stop_report (a : aid) (o : option exc) : value :=
  match o with
  | Some e => error_msg a e
  | None => stopped_msg a
  end.

(** [s'] differs from [s] in the cell [a] and in the log at most. *)
Definition only_cell_changed (a : aid) (s s' : store) : Prop :=
  (forall b, b <> a -> cells s' b = cells s b) /\
  defs s' = defs s /\ next_cell s' = next_cell s /\ next_def s' = next_def s.

Definition is_resume (a : aid) (ev : event) : bool :=
  match ev with EvResume b _ => Nat.eqb b a | _ => false end.

Definition is_handle (a : aid) (ev : event) : bool :=
  match ev with EvHandle b _ => Nat.eqb b a | _ => false end.

Fixpoint position (P : event -> bool) (l : list event) : option nat :=
  match l with
  | [] => None
  | ev :: l' => if P ev then Some 0
                else match position P l' with Some i => Some (S i) | None => None end
  end.

(** The body of [a] was resumed before [a.handle] was first invoked. *)
Definition resumed_before_handled (a : aid) (l : list event) : Prop :=
  exists i j, position (is_resume a) l = Some i /\
              position (is_handle a) l = Some j /\ i < j.

(** The terminal Deferred of a cell. *)
Definition terminal (s : store) (a : aid) : option deferred :=
  match cells s a with
  | Some c => defs s (d c)
  | None => None
  end.

Definition state_of (s : store) (a : aid) : option state :=
  match cells s a with Some c => Some (_state c) | None => None end.

Definition inbox_of (s : store) (a : aid) : list value :=
  match cells s a with Some c => _inbox c | None => [] end.

Definition gen_of (s : store) (a : aid) : option gen_status :=
  match cells s a with Some c => _gen c | None => None end.

Definition called_of (s : store) (x : did) : option bool :=
  option_map called (defs s x).

(** How often the Deferred [x] was fired. *)
Definition fired_of (s : store) (x : did) : option nat :=
  option_map fired (defs s x).

(** ** Scenarios *)

(** A matcher for the scenarios: the pattern [('tag', ANY)] matches the
    pairs with that tag and binds the second component. *)
Definition tag_match (f m : value) : bool * value :=
  match f, m with
  | VTuple [VStr t; VAny], VTuple [VStr t'; v] =>
      if String.eqb t t' then (true, v) else (false, VNone)
  | VAny, _ => (true, m)
  | _, _ => (false, VNone)
  end.

(** A store holding only [k] Deferreds of the environment, not yet fired. *)
Definition env_store (k : nat) : store :=
  mkStore (fun _ => None) 0
          (fun i => if Nat.ltb i k then Some (new_deferred (Some Probe)) else None)
          k [].

(** [yield x] on the first Deferred of the environment, then on the second. *)
Definition await_twice : gen :=
  Yield (VDeferred 0)
        (fun _ => Yield (VDeferred 1) (fun _ => Return) uncaught no_cleanup)
        uncaught no_cleanup.

(** [yield Deferred()] with nothing around it. *)
Definition await_once : gen :=
  Yield (VDeferred 0) (fun _ => Return) uncaught no_cleanup.

(** test_actor_refuses_to_stop: catches GeneratorExit and yields again. *)
Definition refuses_to_stop : gen :=
  Yield (VDeferred 0) (fun _ => Return) uncaught
        (Yield (VDeferred 1) (fun _ => Raise AssertionError) uncaught no_cleanup).

(** test_failure_while_stopping: raises while it is being closed. *)
Definition fails_while_stopping : gen :=
  Yield (VDeferred 0) (fun _ => Return) uncaught (Raise (UserException 0)).

(** A body that waits for a message: [yield self.get()]. *)
Definition waits_for_message : gen :=
  Get None (fun x => Yield x (fun _ => Return) uncaught no_cleanup).

(** A parent that spawns two such children and then waits itself. *)
Definition parent_of_two : gen :=
  Spawn (ActorCls waits_for_message) (fun _ =>
  Spawn (ActorCls waits_for_message) (fun _ => waits_for_message)).

(** A parent that spawns a child whose body raises, then waits. *)
Definition parent_of_failing (e : exc) : gen :=
  Spawn (ActorCls (Raise e)) (fun _ => await_once).

(** The store an outcome leaves, and whether the call returned. *)
Definition store_after (o : outcome) : store :=
  match o with
  | Ok _ s | Exn _ s => s
  | _ => empty_store
  end.

Definition returned (o : outcome) : bool :=
  match o with Ok _ _ => true | _ => false end.

(** A container (a [BaseActor], whose [handle] prints what it receives)
    with one child that waits for a Deferred of the environment. *)
Definition awaiting_child : outcome :=
  run_ops tag_match 20
          [SpawnRoot BaseActor; SpawnChild 0 (inl (ActorCls await_once))]
          (env_store 1).

(** The same child, paused. *)
Definition paused_child : outcome :=
  run_ops tag_match 20
          [SpawnRoot BaseActor; SpawnChild 0 (inl (ActorCls await_once)); Pause 1]
          (env_store 1).

(** The child is paused, the Deferred it waits for fires, a message is
    sent, the child is resumed. *)
Definition pause_fire_send_resume : outcome :=
  run_ops tag_match 20
          [SpawnRoot BaseActor; SpawnChild 0 (inl (ActorCls await_twice)); Pause 1;
           Callback 0 (RValue (VInt 42)); Send 1 (VStr "m"); Resume 1]
          (env_store 2).

(** A paused handler cell with two buffered messages. *)
Definition paused_handler : outcome :=
  run_ops tag_match 20
          [SpawnRoot BaseActor; Pause 0; Send 0 (VInt 1); Send 0 (VInt 2)]
          empty_store.

(** A handler that always raises, spawned on the class. *)
Definition raising_handler : actor_cls :=
  BaseActorCls (fun _ => HRaise (UserException 0)).

Definition spawned_on_class : outcome :=
  run_ops tag_match 20 [SpawnRoot raising_handler] empty_store.

(** A parent whose child raises [UserException 7] in its body. *)
Definition child_fails : outcome :=
  run_ops tag_match 20
          [SpawnRoot BaseActor;
           SpawnChild 0 (inl (ActorCls (parent_of_failing (UserException 7))))]
          (env_store 1).

(** A handler child that raises on the message it is sent. *)
Definition handler_fails : outcome :=
  run_ops tag_match 20
          [SpawnRoot BaseActor; SpawnChild 0 (inl raising_handler); Send 1 (VStr "whatev")]
          empty_store.

(** test_actor_refuses_to_stop and test_failure_while_stopping. *)
Definition stop_refused : outcome :=
  run_ops tag_match 20
          [SpawnRoot BaseActor; SpawnChild 0 (inl (ActorCls refuses_to_stop));
           Pause 1; Stop 1 false]
          (env_store 2).

Definition stop_fails : outcome :=
  run_ops tag_match 20
          [SpawnRoot BaseActor; SpawnChild 0 (inl (ActorCls fails_while_stopping));
           Stop 1 false]
          (env_store 1).

(** A parent with two children waiting for a message is stopped. *)
Definition parent_of_two_stopped : outcome :=
  run_ops tag_match 30
          [SpawnRoot BaseActor; SpawnChild 0 (inl (ActorCls parent_of_two)); Stop 1 false]
          empty_store.

(** A handler cell with a handler child is stopped. *)
Definition handler_parent_stopped : outcome :=
  run_ops tag_match 30
          [SpawnRoot BaseActor; SpawnChild 0 (inl BaseActor); SpawnChild 1 (inl BaseActor);
           Stop 1 false]
          empty_store.

End Actor.

(** * Properties *)

Unset Implicit Arguments.

(** ** The high-water mark of the Process mailbox *)

Section MailboxProperties.

Import Process.
Open Scope Z_scope.

Variable py_eq : value -> value -> bool.

Lemma div_succ (h m : Z) :
  0 < h -> 0 <= m ->
  (m + 1) / h = m / h + (if (m + 1) mod h =? 0 then 1 else 0).
Proof.
  intros Hh Hm.
  pose proof (Z.div_mod m h ltac:(lia)) as Hdm.
  pose proof (Z.mod_pos_bound m h Hh) as Hb.
  destruct (Z.eq_dec (m mod h) (h - 1)) as [E | E].
  - assert (Hm1 : m + 1 = (m / h + 1) * h) by lia.
    rewrite Hm1, Z.div_mul, Z.mod_mul by lia. reflexivity.
  - assert (Hq : (m + 1) / h = m / h).
    { symmetry. apply Z.div_unique with (r := m mod h + 1); lia. }
    assert (Hr : (m + 1) mod h = m mod h + 1).
    { symmetry. apply Z.mod_unique with (q := m / h); lia. }
    rewrite Hq, Hr.
    destruct (Z.eqb_spec (m mod h + 1) 0); lia.
Qed.

Lemma pop_length ix (q : list value) : (length (pop ix q) <= length q)%nat.
Proof.
  revert ix; induction q as [|x q IH]; intros [|i]; simpl; auto.
  specialize (IH i). lia.
Qed.

Lemma receive_invariant m p p' :
  0 < hwm p -> run_invariant p -> receive py_eq m p = inl p' ->
  hwm p' = hwm p /\ run_invariant p'.
Proof.
  intros Hh (Hl & He & Hc). unfold receive.
  destruct (match get_d p with Some pat => wants py_eq pat m | None => false end).
  - intros [= <-]. split; [reflexivity|].
    unfold run_invariant, qlen, queue_items in *; simpl. auto.
  - set (l := Z.of_nat (length (queue_items p ++ [m]))).
    assert (Hl1 : l = qlen p + 1).
    { unfold l, qlen. rewrite length_app. simpl. lia. }
    assert (Hq0 : 0 <= qlen p) by (unfold qlen; lia).
    destruct (Z.eqb_spec l 0); [lia|].
    destruct (Z.eqb_spec (hwm p) 0); [lia|].
    assert (Hmax : 0 <= max_queue_len p) by lia.
    destruct (l mod hwm p =? 0) eqn:Hmod; intros [= <-]; (split; [reflexivity|]);
      unfold run_invariant, qlen, queue_items; simpl;
      fold (queue_items p); fold l;
      rewrite filter_app; simpl; rewrite Hmod, <- He.
    + split; [lia|]. split; [reflexivity|].
      rewrite length_app; simpl.
      destruct (Z.max_spec (max_queue_len p) l) as [[? ->] | [? ->]]; [|lia].
      assert (Hl2 : l = max_queue_len p + 1) by lia.
      rewrite Hl2, div_succ by lia. rewrite Hl2 in Hmod. rewrite Hmod. lia.
    + split; [lia|]. split; [rewrite app_nil_r; reflexivity|].
      destruct (Z.max_spec (max_queue_len p) l) as [[? ->] | [? ->]]; [|lia].
      assert (Hl2 : l = max_queue_len p + 1) by lia.
      rewrite Hl2, div_succ by lia. rewrite Hl2 in Hmod. rewrite Hmod. lia.
Qed.

Lemma get_invariant pat p :
  run_invariant p ->
  hwm (get py_eq pat p) = hwm p /\ run_invariant (get py_eq pat p).
Proof.
  intros (Hl & He & Hc). unfold get.
  destruct (queue p) as [[|x q]|] eqn:Hq;
    try (split; [reflexivity|];
         unfold run_invariant, qlen, queue_items in *; simpl; rewrite ?Hq in *; auto).
  destruct (index py_eq pat (x :: q)) as [ix|]; (split; [reflexivity|]);
    unfold run_invariant, qlen, queue_items in *; simpl; rewrite ?Hq in *; auto.
  split; auto.
  pose proof (pop_length ix (x :: q)). simpl in *. lia.
Qed.

Lemma run_keeps_invariant ops : forall p p',
  0 < hwm p -> run_invariant p -> run py_eq ops p = inl p' ->
  hwm p' = hwm p /\ run_invariant p'.
Proof.
  induction ops as [|[m|pat] ops IH]; simpl; intros p p' Hh Hi.
  - intros [= <-]; auto.
  - destruct (receive py_eq m p) as [p1|e] eqn:Hr; [|discriminate].
    destruct (receive_invariant _ _ _ Hh Hi Hr) as [Hh1 Hi1]. intros Hrun.
    destruct (IH p1 p' ltac:(lia) Hi1 Hrun). split; [congruence|auto].
  - destruct (get_invariant pat _ Hi) as [Hh1 Hi1]. intros Hrun.
    destruct (IH (get py_eq pat p) p' ltac:(lia) Hi1 Hrun). split; [congruence|auto].
Qed.

Lemma run_keeps_growing ops : forall p p',
  0 < hwm p -> growing p -> forallb is_receive ops = true ->
  run py_eq ops p = inl p' -> hwm p' = hwm p /\ growing p'.
Proof.
  induction ops as [|[m|pat] ops IH]; simpl; intros p p' Hh Hi Hall.
  - intros [= <-]; auto.
  - destruct (receive py_eq m p) as [p1|e] eqn:Hr; [|discriminate].
    intros Hrun.
    assert (H1 : hwm p1 = hwm p /\ growing p1).
    { destruct Hi as (Hg & Hl & Hc). unfold receive in Hr. rewrite Hg in Hr.
      set (l := Z.of_nat (length (queue_items p ++ [m]))) in *.
      assert (Hl1 : l = qlen p + 1).
      { unfold l, qlen. rewrite length_app. simpl. lia. }
      assert (Hq0 : 0 <= qlen p) by (unfold qlen; lia).
      destruct (Z.eqb_spec l 0); [lia|].
      destruct (Z.eqb_spec (hwm p) 0); [lia|].
      destruct (l mod hwm p =? 0) eqn:Hmod; injection Hr as <-; (split; [reflexivity|]);
        unfold growing, qlen, queue_items; simpl; fold (queue_items p); fold l;
        (split; [reflexivity|]); (split; [lia|]);
        replace (Z.max (max_queue_len p) l) with (max_queue_len p + 1) by lia;
        rewrite div_succ by lia;
        replace (max_queue_len p + 1) with l by lia; rewrite Hmod.
      - rewrite length_app; simpl. lia.
      - lia. }
    destruct H1 as [Hh1 Hi1].
    destruct (IH p1 p' ltac:(lia) Hi1 Hall Hrun). split; [congruence|auto].
  - discriminate.
Qed.

(** C9, as the code has it: in every run that starts from an empty mailbox
    with a positive mark, an event is emitted exactly at the enqueues that
    bring the queue to a multiple of [hwm]; there are at least
    [floor(max_queue_len / hwm)] events, and exactly that many when the run
    only receives (nothing is taken out of the queue). *)
Theorem C9_hwm_events (h : Z) (ops : list mailbox_op) (p : process) :
  0 < h ->
  run py_eq ops (fresh h) = inl p ->
  events p = filter (fun l => l mod h =? 0) (enqueued_at p) /\
  max_queue_len p / h <= Z.of_nat (length (events p)) /\
  (forallb is_receive ops = true ->
   Z.of_nat (length (events p)) = max_queue_len p / h).
Proof.
  intros Hh Hrun.
  assert (Hi : run_invariant (fresh h)).
  { unfold run_invariant, fresh, qlen, queue_items; simpl.
    rewrite Z.div_0_l by lia. repeat split; lia. }
  destruct (run_keeps_invariant ops (fresh h) p Hh Hi Hrun) as [Hhp (_ & He & Hc)].
  simpl in Hhp. rewrite Hhp in *. repeat split; auto.
  intros Hall.
  assert (Hg : growing (fresh h)).
  { unfold growing, fresh, qlen, queue_items; simpl.
    rewrite Z.div_0_l by lia. repeat split; lia. }
  destruct (run_keeps_growing ops (fresh h) p Hh Hg Hall Hrun) as [_ (_ & _ & Hc')].
  rewrite Hhp in Hc'. exact Hc'.
Qed.

End MailboxProperties.

(** C9 at a concrete run: two messages with the mark at 2. *)
Lemma C9_hwm_events_witness :
  exists p,
    Process.run (fun _ _ => true) [Process.Receive VNone; Process.Receive VNone]
                (Process.fresh 2) = inl p /\
    Process.events p = [2%Z] /\
    (Process.max_queue_len p / 2 <= Z.of_nat (length (Process.events p)))%Z.
Proof.
  eexists. split; [reflexivity|].
  destruct (C9_hwm_events (fun _ _ => true) 2
              [Process.Receive VNone; Process.Receive VNone] _
              ltac:(lia) eq_refl) as (He & Hc & _).
  split; [exact He | exact Hc].
Defined.

(** C9 as stated fails: with the default mark, filling the queue to 10000,
    taking one message and adding one emits two events, while the longest
    queue was 10000 messages, whose quotient by the mark is 1. *)
Lemma C9_counterexample :
  match Process.run (fun _ _ => true) Process.refill_ops
                    (Process.fresh Process.default_hwm) with
  | inl p =>
      Z.of_nat (length (Process.events p)) = 2%Z /\
      (Process.max_queue_len p / Process.hwm p)%Z = 1%Z /\
      Z.of_nat (length (Process.events p))
      <> (Process.max_queue_len p / Process.hwm p)%Z
  | inr _ => False
  end.
Proof.
  vm_compute. repeat split; discriminate.
Qed.

(** ** Running the methods on a store that is only partly known *)

Import Actor.

Lemma upd_same {A : Type} (f : nat -> option A) i (x : A) : upd f i x i = Some x.
Proof. unfold upd. now rewrite Nat.eqb_refl. Qed.

Lemma upd_other {A : Type} (f : nat -> option A) i j (x : A) :
  j <> i -> upd f i x j = f j.
Proof. unfold upd. intros H. apply Nat.eqb_neq in H. now rewrite H. Qed.

Lemma for_each_S {A : Type} k (items : store -> list A) body i s :
  for_each (S k) items body i s =
  match nth_error (items s) i with
  | None => Ok VNone s
  | Some x => bind (body x) (fun _ => for_each k items body (S i)) s
  end.
Proof. reflexivity. Qed.

Lemma run_callbacks_S rec k x s :
  run_callbacks rec (S k) x s =
  with_def x (fun df =>
    match callbacks df with
    | [] => ret VNone
    | cb :: rest =>
        bind (upd_def x (set_callbacks rest)) (fun _ =>
          (fun s =>
             match apply_callback rec cb (dresult df) s with
             | Ok v s' =>
                 (bind (upd_def x (set_dresult (RValue v)))
                       (fun _ => run_callbacks rec k x)) s'
             | Exn e s' =>
                 (bind (upd_def x (set_dresult (RFailure e)))
                       (fun _ => run_callbacks rec k x)) s'
             | o => o
             end))
    end) s.
Proof. reflexivity. Qed.

Lemma add_log_add_log l1 l2 s : add_log l2 (add_log l1 s) = add_log (l1 ++ l2) s.
Proof. unfold add_log; simpl. now rewrite app_assoc. Qed.

Lemma add_log_nil s : add_log [] s = s.
Proof. destruct s; unfold add_log; simpl. now rewrite app_nil_r. Qed.

Arguments upd : simpl never.
Arguments exec : simpl never.
Arguments for_each : simpl never.
Arguments run_callbacks : simpl never.
Arguments stopped_msg : simpl never.
Arguments error_msg : simpl never.
Arguments stop_report : simpl never.
Arguments find_match : simpl never.
Arguments found : simpl never.
Arguments bind m f s /.
Arguments ret v s /.
Arguments raise e s /.
Arguments emit ev s /.
Arguments try_except m h s /.
Arguments try_finally m f s /.
Arguments with_cell a f s /.
Arguments upd_cell a f s /.
Arguments with_def x f s /.
Arguments upd_def x f s /.
Arguments alloc_def df s /.
Arguments alloc_cell k s /.
Arguments parent_send rec a msg s /.
Arguments send rec a message s /.
Arguments actor_handle pmatch rec a message s /.
Arguments handle pmatch rec a message s /.
Arguments pause n rec a s /.
Arguments base_resume n rec a s /.
Arguments exit rec a msg s /.
Arguments base_stop n rec a silent s /.
Arguments fire_current_d rec a r bridge s /.
Arguments register_waiting a filter s /.
Arguments get pmatch a filter s /.
Arguments resume rec a s /.
Arguments run_close rec a g s /.
Arguments close rec a s /.
Arguments on_stop rec a s /.
Arguments stop rec a silent s /.
Arguments finally_ rec a r s /.
Arguments run_gen rec a g s /.
Arguments got_result rec a r s /.
Arguments start rec a s /.
Arguments spawn rec k s /.
Arguments spawn_child rec p c s /.
Arguments apply_callback rec cb r s /.
Arguments callback_ n rec x r s /.
Arguments add_both n rec x cb s /.
Arguments cancel rec x s /.
Arguments set_state x !c /.
Arguments set_parent x !c /.
Arguments set_children x !c /.
Arguments set_pending x !c /.
Arguments set_gen x !c /.
Arguments set_paused_result x !c /.
Arguments set_current_d x !c /.
Arguments set_on_hold_d x !c /.
Arguments set_cancelling_hold_d x !c /.
Arguments set_waiting x !c /.
Arguments set_inbox x !c /.
Arguments set_callbacks l !df /.
Arguments set_dresult r !df /.
Arguments set_suppress b !df /.
Arguments bump_fired !df /.
Arguments fire r !df /.
Arguments children_of a s /.
Arguments pending_of a s /.

(** Look a cell or a Deferred up through the updates made so far. *)
Ltac look := repeat first
  [ rewrite upd_same
  | rewrite upd_other by (solve [assumption | apply not_eq_sym; assumption])
  | match goal with
    | H : cells ?s ?a = Some _ |- context[cells ?s ?a] => rewrite H
    end
  | match goal with
    | H : defs ?s ?x = Some _ |- context[defs ?s ?x] => rewrite H
    end ].

(** Enter the call that is next to run: the one whose store is known. *)
Ltac enter :=
  match goal with
  | |- context[exec ?p (S ?k) ?o ?s] =>
      change (exec p (S k) o s) with (step p k (exec p k) o s)
  | |- context[for_each (S ?k) (children_of ?a) ?body ?i ?s] =>
      rewrite (for_each_S k (children_of a) body i s)
  | |- context[run_callbacks ?rec (S ?k) ?x ?s] =>
      rewrite (run_callbacks_S rec k x s)
  end; cbn [step].

Ltac sx := cbn [Nat.add]; repeat (progress (try look; try enter; cbn)).

(** ** Sending to a cell without a parent, and the class-level spawn *)

Section ActorProperties.

Variable pmatch : value -> value -> bool * value.

(** C10: a running cell with a stateless handler and no parent: when the
    handler raises an exception on a message, [send] itself raises
    AttributeError (after the handler ran), since the escalation calls
    [self.parent.send] on [None]; and [cls.spawn()] on the class yields
    exactly such a cell, running and with no parent. *)
Theorem C10_send_without_parent (fuel : nat) (s : store) (a : aid) (c : cell)
        (h : value -> hres) (m : value) (e : exc) :
  cells s a = Some c ->
  _state c = RUNNING ->
  _parent c = None ->
  cls c = BaseActorCls h ->
  h m = HRaise e ->
  is_Exception e = true ->
  exec pmatch (2 + fuel) (Send a m) s
  = Exn AttributeError (add_log [EvHandle a m] s)
  /\ (forall s0 : store, exists s' c',
        exec pmatch (5 + fuel) (SpawnRoot (BaseActorCls h)) s0
        = Ok (VActor (next_cell s0)) s'
        /\ cells s' (next_cell s0) = Some c'
        /\ _state c' = RUNNING /\ _parent c' = None /\ cls c' = BaseActorCls h).
Proof.
  intros Hc Hs Hp Hk Hh He. split.
  - destruct c as [k st par ch pend td g pr cd oh canc w ib].
    cbn in Hs, Hp, Hk. subst k st par.
    sx. rewrite Hh. cbn. rewrite He. sx. reflexivity.
  - intros s0. eexists. eexists. split; [sx; reflexivity|].
    cbn. look. split; [reflexivity|]. cbn. auto.
Qed.

(** ** Delivering to a cell that accepts the message *)

Arguments deliver : simpl never.
Arguments took : simpl never.

Lemma took_fields pc msg :
  cls (took pc msg) = cls pc /\ _state (took pc msg) = _state pc /\
  _parent (took pc msg) = _parent pc /\ _children (took pc msg) = _children pc /\
  d (took pc msg) = d pc.
Proof.
  unfold took. destruct pc as [k st par ch pend td g pr cd oh canc w ib]; cbn.
  destruct st; cbn; auto. destruct k; cbn; auto.
Qed.

Lemma cells_deliver_same p pc msg s :
  cells s p = Some pc -> accepts pc msg = true ->
  cells (deliver p pc msg s) p = Some (took pc msg).
Proof.
  unfold accepts, deliver, took.
  destruct pc as [k st par ch pend td g pr cd oh canc w ib]; cbn.
  intros Hp. destruct st; try discriminate; cbn.
  - destruct k; cbn; intros _; [exact Hp | apply upd_same].
  - intros _. apply upd_same.
Qed.

Lemma cells_deliver_other p pc msg s b :
  b <> p -> cells (deliver p pc msg s) b = cells s b.
Proof.
  unfold deliver. intros Hb.
  destruct (_state pc); cbn; try reflexivity.
  - destruct (cls pc); cbn; [reflexivity | now apply upd_other].
  - now apply upd_other.
Qed.

Lemma defs_deliver p pc msg s : defs (deliver p pc msg s) = defs s.
Proof. unfold deliver. destruct (_state pc); try reflexivity. destruct (cls pc); reflexivity. Qed.

Lemma log_deliver p pc msg s :
  accepts pc msg = true ->
  log (deliver p pc msg s) = log s ++ deliver_log pc p msg.
Proof.
  unfold accepts, deliver, deliver_log. destruct (_state pc); try discriminate; cbn.
  - destruct (cls pc); reflexivity.
  - intros _. now rewrite app_nil_r.
Qed.

Lemma got_deliver p pc msg s :
  cells s p = Some pc -> accepts pc msg = true -> got (deliver p pc msg s) p msg.
Proof.
  intros Hp Hacc. unfold got.
  pose proof (log_deliver p pc msg s Hacc) as Hl.
  pose proof (cells_deliver_same p pc msg s Hp Hacc) as Hc.
  unfold accepts in Hacc. unfold deliver_log in Hl. unfold took in Hc.
  destruct (_state pc); try discriminate.
  - left. rewrite Hl. apply in_or_app. right. now left.
  - right. eexists. split; [exact Hc|].
    destruct pc; cbn. apply in_or_app. right. now left.
Qed.

Lemma got_intro s' p pc msg pc' :
  accepts pc msg = true ->
  incl (deliver_log pc p msg) (log s') ->
  cells s' p = Some pc' ->
  _pending pc' = _pending (took pc msg) ->
  got s' p msg.
Proof.
  intros Hacc Hl Hc Hp. unfold got.
  unfold accepts in Hacc. unfold deliver_log in Hl. unfold took in Hp.
  destruct pc as [k st par ch pend td g pr cd oh canc w ib]; cbn in *.
  destruct st; try discriminate.
  - left. apply Hl. now left.
  - right. exists pc'. split; [exact Hc|]. rewrite Hp. cbn.
    apply in_or_app. right. now left.
Qed.

Lemma send_accepts fuel s p pc msg :
  cells s p = Some pc -> accepts pc msg = true ->
  exec pmatch (S (S fuel)) (Send p msg) s = Ok VNone (deliver p pc msg s).
Proof.
  intros Hp Hacc. unfold deliver, took.
  destruct pc as [k st par ch pend td g pr cd oh canc w ib].
  unfold accepts in Hacc; cbn in Hacc.
  destruct st; try discriminate Hacc; cbn.
  - destruct k as [h | prun].
    + destruct (h msg) eqn:Hh; try discriminate Hacc. sx. rewrite Hh. reflexivity.
    + destruct w; try discriminate Hacc. sx. reflexivity.
  - sx. reflexivity.
Qed.

Ltac look2 := repeat first
  [ progress look
  | rewrite defs_deliver
  | rewrite cells_deliver_other by (solve [assumption | apply not_eq_sym; assumption])
  | rewrite cells_deliver_same
      by (solve [assumption | cbn; look; reflexivity | auto]) ].

(** Enter the next call unless [ok] refuses the operation. *)
Ltac enter_if ok :=
  match goal with
  | |- context[exec ?p (S ?k) ?o ?s] =>
      ok o; change (exec p (S k) o s) with (step p k (exec p k) o s)
  | |- context[for_each (S ?k) (children_of ?a) ?body ?i ?s] =>
      rewrite (for_each_S k (children_of a) body i s)
  | |- context[run_callbacks ?rec (S ?k) ?x ?s] =>
      rewrite (run_callbacks_S rec k x s)
  end; cbn [step].

Ltac not_send o :=
  lazymatch o with Send _ _ => fail | _ => idtac end.

Ltac not_send_nor_callback o :=
  lazymatch o with Send _ _ => fail | Callback _ _ => fail | _ => idtac end.

Ltac enter_inner := enter_if not_send.

Ltac looks := repeat (progress (try look2; cbn)).

Ltac sx2 := cbn [Nat.add]; repeat (progress (try look2; try enter_inner; cbn)).

(** The same, stopping at the next [callback] of a Deferred as well. *)
Ltac sx3 :=
  cbn [Nat.add]; repeat (progress (try look2; try enter_if not_send_nor_callback; cbn)).

Ltac to_parent Hp Hacc :=
  match goal with
  | |- context[exec ?pm (S (S ?k)) (Send ?p ?msg) ?s] =>
      rewrite (send_accepts k s p _ msg ltac:(cbn; look; reflexivity) Hacc)
  end.

(** The same when the cell accepts every message. *)
Ltac to_parent_any Hacc :=
  match goal with
  | |- context[exec ?pm (S (S ?k)) (Send ?p ?msg) ?s] =>
      rewrite (send_accepts k s p _ msg ltac:(cbn; look; reflexivity) (Hacc msg))
  end.

(** ** Queueing, buffering and replaying *)

Lemma only_cell_changed_refl a s : only_cell_changed a s s.
Proof. unfold only_cell_changed. auto. Qed.

Lemma only_cell_changed_trans a s1 s2 s3 :
  only_cell_changed a s1 s2 -> only_cell_changed a s2 s3 -> only_cell_changed a s1 s3.
Proof.
  unfold only_cell_changed. intros (A1 & B1 & C1 & D1) (A2 & B2 & C2 & D2).
  repeat split; try congruence. intros b Hb. rewrite A2, A1; auto.
Qed.

Lemma only_cell_changed_step a c l s :
  only_cell_changed a s (set_cell a c (add_log l s)).
Proof.
  unfold only_cell_changed; cbn. repeat split; auto.
  intros b Hb. now apply upd_other.
Qed.

(** a running body cell with nobody waiting, or whose awaiter does not
    want the message, queues it *)
Lemma send_enqueue fuel s a run par ch pend td g pr cd oh canc w ib m :
  cells s a = Some (mkCell (ActorCls run) RUNNING par ch pend td g pr cd oh canc w ib) ->
  match w with
  | None => True
  | Some (filt, _) => found pmatch filt m = None
  end ->
  exec pmatch (S (S fuel)) (Send a m) s
  = Ok VNone (set_cell a (mkCell (ActorCls run) RUNNING par ch pend td g pr cd oh canc w
                                 (ib ++ [m]))
                       (add_log [EvHandle a m] s)).
Proof.
  intros Hc Hw. destruct w as [[filt dw]|].
  - sx. rewrite Hw. sx. reflexivity.
  - sx. reflexivity.
Qed.

Lemma replay_actor fuel a run par ch td g pr cd oh canc :
  forall rest done ib s k,
  cells s a = Some (mkCell (ActorCls run) RUNNING par ch (done ++ rest) td g pr cd oh canc
                           None ib) ->
  length rest < k ->
  exists s',
    for_each k (pending_of a) (fun m => exec pmatch (S (S fuel)) (Send a m))
             (length done) s
    = Ok VNone s' /\
    cells s' a = Some (mkCell (ActorCls run) RUNNING par ch (done ++ rest) td g pr cd oh
                              canc None (ib ++ rest)) /\
    log s' = log s ++ map (EvHandle a) rest /\
    only_cell_changed a s s'.
Proof.
  induction rest as [|m rest IH]; intros done ib s k Hc Hk.
  - destruct k; [simpl in Hk; lia|].
    exists s. rewrite for_each_S. cbn. rewrite Hc. cbn.
    rewrite !app_nil_r.
    assert (Hn : nth_error done (length done) = None) by (apply nth_error_None; lia).
    rewrite Hn. repeat split; auto.
  - destruct k; [simpl in Hk; lia|].
    rewrite for_each_S. cbn [pending_of]. rewrite Hc. cbn [_pending].
    rewrite nth_error_app2 by lia. rewrite Nat.sub_diag. cbn [nth_error bind].
    rewrite (send_enqueue fuel s a run par ch (done ++ m :: rest) td g pr cd oh canc None
                          ib m Hc I).
    destruct (IH (done ++ [m]) (ib ++ [m])
                 (set_cell a (mkCell (ActorCls run) RUNNING par ch (done ++ m :: rest) td g
                                     pr cd oh canc None (ib ++ [m]))
                           (add_log [EvHandle a m] s)) k)
      as (s' & He & Hc' & Hl & Hf).
    + cbn. rewrite upd_same. rewrite <- app_assoc. reflexivity.
    + simpl in Hk. lia.
    + exists s'. rewrite length_app in He. cbn [length] in He.
      replace (length done + 1) with (S (length done)) in He by lia.
      split; [exact He|].
      split; [rewrite Hc', <- !app_assoc; reflexivity|].
      split; [rewrite Hl; cbn; rewrite <- app_assoc; reflexivity|].
      eapply only_cell_changed_trans; [apply only_cell_changed_step | exact Hf].
Qed.

(** the same for messages sent one after the other from outside *)
Lemma sends_enqueue fuel a run par ch pend td g pr cd oh canc w :
  forall ms ib s,
  cells s a = Some (mkCell (ActorCls run) RUNNING par ch pend td g pr cd oh canc w ib) ->
  Forall (fun m => match w with
                   | None => True
                   | Some (filt, _) => found pmatch filt m = None
                   end) ms ->
  exists s',
    run_ops pmatch (S (S fuel)) (map (Send a) ms) s = Ok VNone s' /\
    cells s' a = Some (mkCell (ActorCls run) RUNNING par ch pend td g pr cd oh canc w
                              (ib ++ ms)) /\
    log s' = log s ++ map (EvHandle a) ms /\
    only_cell_changed a s s'.
Proof.
  induction ms as [|m ms IH]; intros ib s Hc Hall.
  - exists s. cbn. rewrite !app_nil_r. repeat split; auto.
  - inversion Hall as [|? ? Hm Hms]; subst.
    cbn [map run_ops bind].
    rewrite (send_enqueue fuel s a run par ch pend td g pr cd oh canc w ib m Hc Hm).
    destruct (IH (ib ++ [m])
                 (set_cell a (mkCell (ActorCls run) RUNNING par ch pend td g pr cd oh canc w
                                     (ib ++ [m]))
                           (add_log [EvHandle a m] s)))
      as (s' & He & Hc' & Hl & Hf).
    + cbn. rewrite upd_same. reflexivity.
    + exact Hms.
    + exists s'. split; [exact He|].
      split; [rewrite Hc', <- !app_assoc; reflexivity|].
      split; [rewrite Hl; cbn; rewrite <- app_assoc; reflexivity|].
      eapply only_cell_changed_trans; [apply only_cell_changed_step | exact Hf].
Qed.

(** sends to a paused cell are buffered *)
Lemma sends_buffer fuel a :
  forall ms c s,
  cells s a = Some c -> _state c = PAUSED ->
  exists s',
    run_ops pmatch (S fuel) (map (Send a) ms) s = Ok VNone s' /\
    cells s' a = Some (set_pending (_pending c ++ ms) c) /\
    log s' = log s /\
    only_cell_changed a s s'.
Proof.
  induction ms as [|m ms IH]; intros c s Hc Hst.
  - exists s. cbn. rewrite app_nil_r. destruct c; cbn. repeat split; auto.
  - cbn [map run_ops bind].
    assert (Hs : exec pmatch (S fuel) (Send a m) s
                 = Ok VNone (set_cell a (set_pending (_pending c ++ [m]) c) s)).
    { destruct c as [k st par ch pend td g pr cd oh canc w ib]; cbn in Hst; subst st.
      sx. reflexivity. }
    rewrite Hs.
    destruct (IH (set_pending (_pending c ++ [m]) c)
                 (set_cell a (set_pending (_pending c ++ [m]) c) s))
      as (s' & He & Hc' & Hl & Hf).
    + cbn. rewrite upd_same. reflexivity.
    + destruct c; cbn in *; auto.
    + exists s'. split; [exact He|].
      split; [rewrite Hc'; destruct c; cbn; rewrite <- !app_assoc; reflexivity|].
      split; [exact Hl|].
      eapply only_cell_changed_trans; [|exact Hf].
      unfold only_cell_changed; cbn. repeat split; auto.
      intros b Hb. now apply upd_other.
Qed.

(** the messages a handler returns on are replayed in order *)
Lemma replay_handler fuel a h par td g pr cd oh canc w ib pend :
  forall rest done s k i,
  i = length done ->
  pend = done ++ rest ->
  (forall m, In m rest -> h m = HReturn) ->
  cells s a = Some (mkCell (BaseActorCls h) RUNNING par [] pend td g pr cd oh canc w ib) ->
  length rest < k ->
  for_each k (pending_of a) (fun m => exec pmatch (S (S fuel)) (Send a m)) i s
  = Ok VNone (add_log (map (EvHandle a) rest) s).
Proof.
  induction rest as [|m rest IH]; intros done s k i -> Hp Hh Hc Hk.
  - destruct k; [simpl in Hk; lia|].
    rewrite for_each_S. cbn. rewrite Hc. cbn.
    rewrite Hp, app_nil_r.
    assert (Hn : nth_error done (length done) = None) by (apply nth_error_None; lia).
    rewrite Hn. now rewrite add_log_nil.
  - destruct k; [simpl in Hk; lia|].
    rewrite for_each_S. cbn [pending_of]. rewrite Hc. cbn [_pending].
    rewrite Hp.
    rewrite nth_error_app2 by lia. rewrite Nat.sub_diag. cbn [nth_error].
    cbn [bind].
    assert (Hs : exec pmatch (S (S fuel)) (Send a m) s = Ok VNone (add_log [EvHandle a m] s)).
    { sx. rewrite (Hh m (or_introl eq_refl)). reflexivity. }
    rewrite Hs.
    rewrite (IH (done ++ [m]) (add_log [EvHandle a m] s) k (S (length done))).
    + rewrite add_log_add_log. reflexivity.
    + rewrite length_app. cbn. lia.
    + rewrite <- app_assoc. exact Hp.
    + intros m' Hm'. apply Hh. now right.
    + cbn. exact Hc.
    + simpl in Hk. lia.
Qed.

(** ** The states of [send], and [resume] replaying the buffer *)


(** ** Stopping a body that waits for a Deferred *)

(** C4: [stop] on a body cell suspended at [yield D], where [D] has not
    fired and the body does no cleanup of its own (it lets GeneratorExit
    pass, or returns on it): [D.cancel()] is invoked, the body is not
    resumed (the log gains no resumption), the generator is closed, the
    call returns without raising, the cell is STOPPED, the parent has
    received [('stopped', a)], the cell has left the parent's children and
    its terminal Deferred has fired once. *)
Theorem C4_stop_cancels_the_awaited (fuel : nat) (s : store) (a p : aid)
        (x bridge td : did) (run : gen) (ks : value -> gen) (kt : exc -> gen)
        (kc : gen) (silent : bool) (st : state) (pend : list value)
        (cd : option did) (pr : result) (w : option (option value * did))
        (ib : list value) (dx dt : result) (cz : option canceller) (pc : cell) :
  cells s a = Some (mkCell (ActorCls run) st (Some p) [] pend td
                           (Some (GenSuspended ks kt kc)) pr cd (Some x) false w ib) ->
  st = RUNNING \/ st = PAUSED ->
  kc = no_cleanup \/ kc = Return ->
  defs s x = Some (mkDeferred false dx [CbFireCurrentD a bridge] cz false 0) ->
  cz = None \/ cz = Some Probe ->
  defs s td = Some (mkDeferred false dt [CbRemoveChild p a] None false 0) ->
  td <> x -> p <> a ->
  cells s p = Some pc ->
  mem a (_children pc) = true ->
  accepts pc (stopped_msg a) = true ->
  exists s',
    exec pmatch (8 + fuel) (Stop a silent) s = Ok VNone s' /\
    log s' = log s ++ EvCancel x :: deliver_log pc p (stopped_msg a) /\
    state_of s' a = Some STOPPED /\ gen_of s' a = Some GenDone /\
    called_of s' x = Some true /\
    got s' p (stopped_msg a) /\
    children_of p s' = remove_first a (children_of p s) /\
    called_of s' td = Some true /\ fired_of s' td = Some 1.
Proof.
  intros Ha Hst Hkc Hx Hcz Htd Hne Hpa Hp Hmem Hacc.
  destruct (took_fields pc (stopped_msg a)) as (Tk & Ts & Tp & Tc & Td).
  destruct Hst as [-> | ->]; destruct Hkc as [-> | ->]; destruct Hcz as [-> | ->].
  all: eexists.
  all: (split; [sx2; to_parent Hp Hacc; sx2; rewrite Tc, Hmem; sx2; reflexivity | ]).
  all: unfold state_of, gen_of, called_of, fired_of, children_of.
  all: repeat match goal with |- _ /\ _ => split end;
         looks;
         rewrite ?(log_deliver _ _ _ _ Hacc); cbn; rewrite <- ?app_assoc; cbn;
         try reflexivity.
  all: try (eapply (got_intro _ p pc); [ exact Hacc | | looks; reflexivity | reflexivity ];
            looks; rewrite ?(log_deliver _ _ _ _ Hacc);
            intros ev Hev; rewrite ?in_app_iff; cbn; tauto).
  all: rewrite ?Tc; try reflexivity.
Qed.

(** ** A paused body whose awaited result has arrived *)


(** ** Selective receive *)

Lemma run_ops_app fuel ops1 : forall ops2 s s1,
  run_ops pmatch fuel ops1 s = Ok VNone s1 ->
  run_ops pmatch fuel (ops1 ++ ops2) s = run_ops pmatch fuel ops2 s1.
Proof.
  induction ops1 as [|o ops1 IH]; intros ops2 s s1; cbn [run_ops app bind ret].
  - intros [= <-]. reflexivity.
  - destruct (exec pmatch fuel o s) as [v s'| | |]; try discriminate.
    apply IH.
Qed.


(** ** The terminal Deferred *)

(** The facts about the store a stop leaves. *)
Ltac finish_facts Hacc p pc :=
  unfold state_of, called_of, fired_of;
  repeat match goal with |- _ /\ _ => split end;
  looks; try reflexivity;
  try (eapply (got_intro _ p pc);
       [ apply Hacc | | looks; reflexivity | reflexivity ];
       looks; rewrite ?(log_deliver _ _ _ _ (Hacc _));
       intros ev Hev; rewrite ?in_app_iff; cbn; tauto).


End ActorProperties.

(** ** The properties at concrete runs *)

(** C10 at the cell that [cls.spawn()] makes of a handler that raises. *)
Lemma C10_send_without_parent_witness :
  exec tag_match 2 (Send 0 (VStr "whatev")) (store_after spawned_on_class)
  = Exn AttributeError
        (add_log [EvHandle 0 (VStr "whatev")] (store_after spawned_on_class)).
Proof.
  refine (proj1 (C10_send_without_parent tag_match 0 (store_after spawned_on_class) 0 _
                   (fun _ => HRaise (UserException 0)) (VStr "whatev") (UserException 0)
                   _ _ _ _ _ _)); reflexivity.
Defined.


(** C4 at the child that waits for a Deferred of the environment. *)
Lemma C4_stop_cancels_the_awaited_witness :
  exists s',
    exec tag_match 8 (Stop 1 false) (store_after awaiting_child) = Ok VNone s' /\
    log s' = [EvCancel 0; EvHandle 0 (stopped_msg 1)] /\
    state_of s' 1 = Some STOPPED /\
    children_of 0 s' = [] /\
    fired_of s' 2 = Some 1.
Proof.
  edestruct (C4_stop_cancels_the_awaited tag_match 0 (store_after awaiting_child) 1 0 0 3 2)
    as (s' & He & Hl & Hs & _ & _ & _ & Hch & _ & Hf);
    [ reflexivity | left; reflexivity | left; reflexivity | reflexivity
    | right; reflexivity | reflexivity | discriminate | discriminate
    | reflexivity | reflexivity | reflexivity | ].
  exists s'. repeat split; [exact He | exact Hl | exact Hs | exact Hch | exact Hf].
Defined.






(** C2 on the code: when the body of a spawned child raises, the parent's
    inbox holds [('error', child, (exc, traceback))], a tuple of three
    elements with no flag for the startup, and the child has left the
    parent's children; the failure of a handler is escalated in the same
    shape. *)
Theorem C2_error_report_has_three_elements :
  returned child_fails = true /\
  inbox_of (store_after child_fails) 1
  = [VTuple [VStr "error"; VActor 2; VTuple [VExc (UserException 7); VTraceback]]] /\
  children_of 1 (store_after child_fails) = [] /\
  returned handler_fails = true /\
  log (store_after handler_fails)
  = [EvHandle 1 (VStr "whatev");
     EvHandle 0 (VTuple [VStr "error"; VActor 1;
                         VTuple [VExc (UserException 0); VTraceback]])].
Proof. repeat split; reflexivity. Qed.

(** C3 on the code: a [stop] whose body yields again on GeneratorExit, or
    raises while it is closed, reports [('error', child, (exc, traceback))]
    to the parent (RuntimeError in the first case) and sends no 'stopped'
    message at all. *)
Theorem C3_unclean_stop_reports_error :
  returned stop_refused = true /\
  log (store_after stop_refused)
  = [EvCancel 0;
     EvHandle 0 (VTuple [VStr "error"; VActor 1; VTuple [VExc RuntimeError; VTraceback]])] /\
  state_of (store_after stop_refused) 1 = Some STOPPED /\
  returned stop_fails = true /\
  log (store_after stop_fails)
  = [EvCancel 0;
     EvHandle 0 (VTuple [VStr "error"; VActor 1;
                         VTuple [VExc (UserException 0); VTraceback]])] /\
  state_of (store_after stop_fails) 1 = Some STOPPED.
Proof. repeat split; reflexivity. Qed.

(** C7 on the code: a parent (cell 1) that spawned two children (cells 2
    and 3), each waiting for a message, is stopped.  The first child is
    stopped, reports to the parent and is removed from the list the loop
    runs over, so the loop ends: the second child is left PAUSED and is
    still among the children of the stopped parent. *)
Theorem C7_second_child_is_not_stopped :
  returned parent_of_two_stopped = true /\
  state_of (store_after parent_of_two_stopped) 1 = Some STOPPED /\
  state_of (store_after parent_of_two_stopped) 2 = Some STOPPED /\
  state_of (store_after parent_of_two_stopped) 3 = Some PAUSED /\
  children_of 1 (store_after parent_of_two_stopped) = [3] /\
  pending_of 1 (store_after parent_of_two_stopped) = [stopped_msg 2].
Proof. repeat split; reflexivity. Qed.
